(** * webauthn-2fa-key: the authentication router of [libs/auth.js]

    A shallow embedding of the Express router in [libs/auth.js]: the
    utilities ([isPasswordCorrect], [getAuthType], [getOrigin]), the lowdb
    actions, [completeAuthentication] and the route handlers, followed by
    the properties of the authentication and credential state machine.

    Conventions of the embedding.
    - A JavaScript value that may be [undefined] is an [option]; [None] is
      [undefined].
    - Strings are Rocq strings; a character stands for one code unit below
      256 (header values, environment variables and base64url identifiers
      are ASCII).
    - A handler is a computation over [State] that may throw; state changes
      made before a throw stay, as in JavaScript.
    - Request bodies and query strings have the shapes the handlers
      document as their input; headers and session properties may be
      missing.
    - The collaborators that are not code of the repository (the WebAuthn
      verifier, the session middleware, the random sources, the clock, the
      HTTP response object of Express 4) appear as a record of functions
      ([Fido2]), as per-request inputs ([Oracle]) and as small models of
      their documented behaviour.
    - A state describes one request.  Its session is the object
      [req.session]: [handle] gives it as the handler leaves it.  Its
      session store changes only where the router asks for it
      ([regenerate] and [save]); what the session middleware does on its
      own account, writing the session to the store when the response is
      sent and reading it back for the next request of the client, is not
      part of the embedding, so no property below runs a second request on
      the state of a first. *)

From Stdlib Require Import String Ascii ZArith List Bool Lia.
From stdpp Require Import base option list gmap strings.

Local Open Scope string_scope.
Local Open Scope Z_scope.

(** ** JavaScript string and number primitives used by [getOrigin] *)

Module Js.

(** [s.indexOf(t)]: the position of the first occurrence, [-1] when there
    is none. *)
Definition indexOf (s t : string) : Z :=
  match String.index 0 t s with
  | Some n => Z.of_nat n
  | None => -1
  end.

(** [s.split(sep)] for a one-character separator: the pieces between the
    occurrences of the separator; the empty string splits into one empty
    piece. *)
Fixpoint split (sep : ascii) (s : string) : list string :=
  match s with
  | EmptyString => [EmptyString]
  | String c rest =>
      if Ascii.eqb c sep then EmptyString :: split sep rest
      else match split sep rest with
           | [] => [String c EmptyString]
           | piece :: pieces => String c piece :: pieces
           end
  end.

(** The characters [parseInt] skips at the start of its input. *)
Definition isStrWhiteSpaceChar (c : ascii) : bool :=
  let n := Z.of_nat (nat_of_ascii c) in
  ((9 <=? n) && (n <=? 13)) || (n =? 32) || (n =? 160).

Fixpoint trimStart (s : string) : string :=
  match s with
  | String c rest => if isStrWhiteSpaceChar c then trimStart rest else s
  | EmptyString => s
  end.

(** The value of a radix-16 digit. *)
Definition hexDigit (c : ascii) : option Z :=
  let n := Z.of_nat (nat_of_ascii c) in
  if (48 <=? n) && (n <=? 57) then Some (n - 48)
  else if (65 <=? n) && (n <=? 70) then Some (n - 55)
  else if (97 <=? n) && (n <=? 102) then Some (n - 87)
  else None.

(** The longest prefix of radix-16 digits, read as an integer; [None] when
    the prefix is empty. *)
Fixpoint hexPrefix (acc : option Z) (s : string) : option Z :=
  match s with
  | EmptyString => acc
  | String c rest =>
      match hexDigit c with
      | Some d => hexPrefix (Some (16 * default 0 acc + d)) rest
      | None => acc
      end
  end.

(** A JavaScript number, as far as [parseInt] can produce one. *)
Inductive Number : Type :=
  | NaN
  | Infinity (negative : bool)
  | Int (n : Z).

(** The Number value of a mathematical integer: exact up to [2^53], rounded
    to 53 significant bits (ties to even) above, infinite from [2^1024]. *)
Definition toNumber (n : Z) : Number :=
  let a := Z.abs n in
  if a <? 2 ^ 53 then Int n
  else
    let e := Z.log2 a - 52 in
    let q := a / 2 ^ e in
    let r := a mod 2 ^ e in
    let half := 2 ^ (e - 1) in
    let q' := if (half <? r) || ((r =? half) && Z.odd q) then q + 1 else q in
    let v := q' * 2 ^ e in
    if 2 ^ 1024 <=? v then Infinity (n <? 0) else Int (Z.sgn n * v).

(** [parseInt(s, 16)]. *)
Definition parseInt16 (s : string) : Number :=
  let s1 := trimStart s in
  let '(negative, s2) :=
    match s1 with
    | String "-" rest => (true, rest)
    | String "+" rest => (false, rest)
    | _ => (false, s1)
    end in
  let s3 :=
    match s2 with
    | String "0" (String "x" rest) => rest
    | String "0" (String "X" rest) => rest
    | _ => s2
    end in
  match hexPrefix None s3 with
  | None => NaN
  | Some m => toNumber (if negative then - m else m)
  end.

(** The conversion applied to each element when a byte array is built from
    an array of numbers. *)
Definition toUint8 (x : Number) : Z :=
  match x with
  | NaN | Infinity _ => 0
  | Int n => n mod 256
  end.

(** [Buffer.from(array)]. *)
Definition bufferFrom (xs : list Number) : list Z := map toUint8 xs.

End Js.

(** ** The [base64url] package *)

Module Base64url.

Definition alphabet : string :=
  "ABCDEFGHIJKLMNOPQRSTUVWXYZabcdefghijklmnopqrstuvwxyz0123456789+/".

Definition digit (n : Z) : ascii :=
  match String.get (Z.to_nat n) alphabet with
  | Some c => c
  | None => "="%char
  end.

(** [buffer.toString("base64")]: three bytes give four digits, a last group
    of one or two bytes is padded with [=]. *)
Fixpoint toBase64 (bs : list Z) : string :=
  match bs with
  | [] => EmptyString
  | [a] =>
      String (digit (Z.shiftr a 2))
        (String (digit (Z.shiftl (Z.land a 3) 4)) "==")
  | [a; b] =>
      String (digit (Z.shiftr a 2))
        (String (digit (Z.lor (Z.shiftl (Z.land a 3) 4) (Z.shiftr b 4)))
           (String (digit (Z.shiftl (Z.land b 15) 2)) "="))
  | a :: b :: c :: rest =>
      String (digit (Z.shiftr a 2))
        (String (digit (Z.lor (Z.shiftl (Z.land a 3) 4) (Z.shiftr b 4)))
           (String (digit (Z.lor (Z.shiftl (Z.land b 15) 2) (Z.shiftr c 6)))
              (String (digit (Z.land c 63)) (toBase64 rest))))
  end.

(** [fromBase64]: drop the padding, [+] becomes [-], [/] becomes [_]. *)
Fixpoint fromBase64 (s : string) : string :=
  match s with
  | EmptyString => EmptyString
  | String c rest =>
      if Ascii.eqb c "=" then fromBase64 rest
      else if Ascii.eqb c "+" then String "-" (fromBase64 rest)
      else if Ascii.eqb c "/" then String "_" (fromBase64 rest)
      else String c (fromBase64 rest)
  end.

(** [base64url.encode] of a byte buffer. *)
Definition encode (bs : list Z) : string := fromBase64 (toBase64 bs).

End Base64url.


(** ** Configuration *)

(** The environment variables the router reads. *)
Record ProcessEnv : Type := {
  NODE_ENV : option string;
  HOSTNAME : option string;
  ANDROID_SHA256HASH : option string;
  ORIGIN : option string
}.

Module authSettings.
Definition RP_NAME : string := "bahnid-webauthn-codelab".
Definition RP_ID (env : ProcessEnv) : option string :=
  match NODE_ENV env with
  | Some "development" => Some "localhost"
  | _ => HOSTNAME env
  end.
Definition FIDO_TIMEOUT : Z := 30 * 1000 * 60.
Definition USER_VERIFICATION : string := "preferred".
End authSettings.

Module authTypes.
Definition SINGLE_FACTOR : string := "sfa".
Definition TWO_FACTOR : string := "2fa".
End authTypes.

Module authStatuses.
Definition NEED_SECOND_FACTOR : string := "needSecondFactor".
Definition COMPLETE : string := "complete".
End authStatuses.

Definition GENERIC_AUTH_ERROR_MESSAGE : string :=
  "Username or password incorrect or credential not found or user verification failed".

(** ** Data model *)

(** A stored credential, with the properties [POST /credential] gives it. *)
Record Credential : Type := {
  publicKey : string;
  credId : string;
  name : string;
  transports : list string;
  creationDate : Z;
  isResidentKey : option bool
}.

(** A record of [db.users]. *)
Record User : Type := {
  username : string;
  id : string;
  credentials : list Credential
}.

#[global] Instance User_inhabited : Inhabited User :=
  populate {| username := ""; id := ""; credentials := [] |}.

(** [req.session]: the properties the router reads and writes. *)
Module Session.
Record t : Type := {
  name : option string;
  username : option string;
  isPasswordCorrect : option bool;
  authStatus : option string;
  challenge : option string
}.

(** The session the middleware generates: none of the properties is set. *)
Definition empty : t :=
  {| name := None; username := None; isPasswordCorrect := None;
     authStatus := None; challenge := None |}.

Definition set_name (v : option string) (s : t) : t :=
  {| name := v; username := username s;
     isPasswordCorrect := isPasswordCorrect s;
     authStatus := authStatus s; challenge := challenge s |}.
Definition set_username (v : option string) (s : t) : t :=
  {| name := name s; username := v;
     isPasswordCorrect := isPasswordCorrect s;
     authStatus := authStatus s; challenge := challenge s |}.
Definition set_isPasswordCorrect (v : option bool) (s : t) : t :=
  {| name := name s; username := username s; isPasswordCorrect := v;
     authStatus := authStatus s; challenge := challenge s |}.
Definition set_authStatus (v : option string) (s : t) : t :=
  {| name := name s; username := username s;
     isPasswordCorrect := isPasswordCorrect s;
     authStatus := v; challenge := challenge s |}.
Definition set_challenge (v : option string) (s : t) : t :=
  {| name := name s; username := username s;
     isPasswordCorrect := isPasswordCorrect s;
     authStatus := authStatus s; challenge := v |}.
End Session.

(** The credential a client submits: its identifier and the signed
    response, which only the verifier reads. *)
Record ClientCredential : Type := {
  cc_id : string;
  cc_response : string
}.

(** [req.body], with the shapes the handlers document as their input. *)
Record RequestBody : Type := {
  body_username : string;
  body_password : string;
  body_credential : ClientCredential;
  body_id : string;
  body_response : string;
  body_transports : option (list string);
  (** [credProps], when the client supplies it, is an object whose [rk]
      may be missing. *)
  body_credProps : option (option bool)
}.

Record Request : Type := {
  header_X_Requested_With : option string;
  header_User_Agent : option string;
  body : RequestBody;
  query_credId : string;
  query_name : string;
  (** What [validationResult(req)] holds after the [check] chain of the
      route has run. *)
  validationErrors : list string
}.

(** Descriptor of a credential in the options sent to the client. *)
Record CredentialDescriptor : Type := {
  cd_id : string;
  cd_type : string;
  cd_transports : list string
}.

Record AssertionOptions : Type := {
  opt_challenge : string;
  opt_timeout : Z;
  opt_rpID : option string;
  opt_allowCredentials : list CredentialDescriptor;
  opt_userVerification : string
}.

Record AttestationOptions : Type := {
  att_challenge : string;
  att_rpName : string;
  att_rpID : option string;
  att_userID : string;
  att_userName : option string;
  att_timeout : Z;
  att_excludeCredentials : list CredentialDescriptor
}.

(** ** Exceptions and the HTTP response *)

Inductive Exn : Type :=
  | TypeError (msg : string)
  | Error (msg : string)
  | ERR_HTTP_HEADERS_SENT.

(** [e.message]. *)
Definition message (e : Exn) : string :=
  match e with
  | TypeError msg | Error msg => msg
  | ERR_HTTP_HEADERS_SENT =>
      "Cannot set headers after they are sent to the client"
  end.

Definition readOfUndefined (prop : string) : Exn :=
  TypeError ("Cannot read properties of undefined (reading '" +:+ prop +:+ "')").

Definition setOfUndefined (prop : string) : Exn :=
  TypeError ("Cannot set properties of undefined (setting '" +:+ prop +:+ "')").

Inductive Result (A : Type) : Type :=
  | Return (a : A)
  | Throw (e : Exn).
Arguments Return {A} a.
Arguments Throw {A} e.

(** The JSON documents the router sends. *)
Inductive Json : Type :=
  | ErrorJson (error : string)
  | ValidationErrorsJson (errors : list string)
  | StatusJson (msg authStatus : string)
  | UserJson (user : User)
  | EmptyJson
  | OptionsJson (options : AssertionOptions)
  | AttestationOptionsJson (options : AttestationOptions)
  (** the error page of the default error handler of Express *)
  | ErrorPage (e : Exn).

Record Response : Type := {
  status : Z;
  json : Json
}.

(** ** The WebAuthn verifier *)

Record AssertionInput : Type := {
  as_credential : ClientCredential;
  as_expectedChallenge : option string;
  as_expectedOrigin : option string;
  as_expectedRPID : option string;
  as_authenticator : option Credential
}.

Record AttestationInput : Type := {
  at_credential : RequestBody;
  at_expectedChallenge : option string;
  at_expectedOrigin : option string;
  at_expectedRPID : option string
}.

Record AuthenticatorInfo : Type := {
  base64PublicKey : string;
  base64CredentialID : string
}.

Record Verification : Type := {
  verified : bool;
  authenticatorInfo : option AuthenticatorInfo
}.

(** [@simplewebauthn/server], as the router uses it: each verification
    returns a result or throws. *)
Record Fido2 : Type := {
  verifyAssertionResponse : AssertionInput -> Result Verification;
  verifyAttestationResponse : AttestationInput -> Result Verification
}.

(** What a request gets from the random sources, the clock and the session
    store. *)
Record Oracle : Type := {
  (** [crypto.randomBytes(32)] *)
  randomBytes : list Z;
  (** [Date.now()] *)
  now : Z;
  (** the challenge [fido2.generateAssertionOptions] picks *)
  generatedChallenge : string;
  (** the identifier the middleware generates for a new session, given
      the identifiers issued so far, and the contract of its generator:
      identifiers are unique *)
  generateSessionID : gset string -> string;
  generateSessionID_unique : forall issued, generateSessionID issued ∉ issued;
  (** the error, if any, of the store's [destroy] inside [regenerate] *)
  destroyError : option Exn;
  (** the error, if any, of the store's [set] inside [save] *)
  saveError : option Exn
}.

(** ** State and computations *)

Record State : Type := {
  (** [db.get("users")] *)
  users : list User;
  (** the session store: session identifier to session *)
  sessions : gmap string Session.t;
  (** [req.sessionID] and [req.session] *)
  sessionID : string;
  session : Session.t;
  (** what [res] has sent, if anything *)
  response : option Response;
  (** exceptions thrown where no handler of the router catches them *)
  uncaught : list Exn
}.

Definition set_users (v : list User) (st : State) : State :=
  {| users := v; sessions := sessions st; sessionID := sessionID st;
     session := session st; response := response st; uncaught := uncaught st |}.
Definition set_sessions (v : gmap string Session.t) (st : State) : State :=
  {| users := users st; sessions := v; sessionID := sessionID st;
     session := session st; response := response st; uncaught := uncaught st |}.
Definition set_sessionID (v : string) (st : State) : State :=
  {| users := users st; sessions := sessions st; sessionID := v;
     session := session st; response := response st; uncaught := uncaught st |}.
Definition set_session (v : Session.t) (st : State) : State :=
  {| users := users st; sessions := sessions st; sessionID := sessionID st;
     session := v; response := response st; uncaught := uncaught st |}.
Definition set_response (v : option Response) (st : State) : State :=
  {| users := users st; sessions := sessions st; sessionID := sessionID st;
     session := session st; response := v; uncaught := uncaught st |}.
Definition set_uncaught (v : list Exn) (st : State) : State :=
  {| users := users st; sessions := sessions st; sessionID := sessionID st;
     session := session st; response := response st; uncaught := v |}.

(** A computation of the router. *)
Definition M (A : Type) : Type := State -> Result A * State.

#[global] Instance M_ret : MRet M := fun A a st => (Return a, st).
#[global] Instance M_bind : MBind M := fun A B f m st =>
  match m st with
  | (Return a, st') => f a st'
  | (Throw e, st') => (Throw e, st')
  end.

Definition throw {A : Type} (e : Exn) : M A := fun st => (Throw e, st).

(** [try { m } catch (e) { h e }] *)
Definition try_catch {A : Type} (m : M A) (h : Exn -> M A) : M A := fun st =>
  match m st with
  | (Return a, st') => (Return a, st')
  | (Throw e, st') => h e st'
  end.

Definition liftR {A : Type} (r : Result A) : M A := fun st => (r, st).
Definition gets {A : Type} (f : State -> A) : M A := fun st => (Return (f st), st).
Definition modify (f : State -> State) : M unit := fun st => (Return tt, f st).

(** A callback that a collaborator calls once its work is done, after the
    code that registered it has returned: what it throws reaches no
    [catch] of the router.  Every registration in the router is the last
    statement of its handler, so the callback is run in place. *)
Definition callback (m : M unit) : M unit := fun st =>
  match m st with
  | (Return _, st') => (Return tt, st')
  | (Throw e, st') => (Return tt, set_uncaught (uncaught st' ++ [e]) st')
  end.

(** [res.status(code).json(doc)]: the first call sends the response; a call
    after a response was sent throws, the response is not changed. *)
Definition res_json (code : Z) (doc : Json) : M unit := fun st =>
  match response st with
  | Some _ => (Throw ERR_HTTP_HEADERS_SENT, st)
  | None => (Return tt, set_response (Some {| status := code; json := doc |}) st)
  end.

(** Handling of one request by an [async] handler: [res] has sent
    nothing yet; an exception that leaves the handler rejects the promise
    the handler returned, which nothing handles. *)
Definition handle (h : M unit) (st : State) : State :=
  match h (set_uncaught [] (set_response None st)) with
  | (Return _, st') => st'
  | (Throw e, st') => set_uncaught (uncaught st' ++ [e]) st'
  end.

(** Handling of one request by a handler that is not [async]: Express
    catches an exception that leaves the handler and, when nothing was
    sent, answers with status 500 and its error page. *)
Definition handleSync (h : M unit) (st : State) : State :=
  match h (set_uncaught [] (set_response None st)) with
  | (Return _, st') => st'
  | (Throw e, st') =>
      match response st' with
      | None => set_response (Some {| status := 500; json := ErrorPage e |}) st'
      | Some _ => set_uncaught (uncaught st' ++ [e]) st'
      end
  end.

(** ** JavaScript truthiness of the values the guards test *)

Definition truthyString (v : option string) : bool :=
  match v with
  | Some s => negb (String.eqb s "")
  | None => false
  end.

Definition truthyBool (v : option bool) : bool := default false v.

(** ** Utils *)

Definition isPasswordCorrect (username password : string) : bool :=
  (* Always true, in this demo the password isn't actually checked *)
  true.

Definition getAuthType (credentials : list Credential) : string :=
  if 0 <? Z.of_nat (length credentials)
  then authTypes.TWO_FACTOR
  else authTypes.SINGLE_FACTOR.

(** A user in hand: [db.get("users").find({ username }).value()] returns
    the stored object itself, not a copy, so a user is its position in
    [users], and what a handler changes through it is changed in the
    database. *)
Abbreviation UserRef := nat (only parsing).

Section Router.

Context (env : ProcessEnv) (fido2 : Fido2).

Definition getOrigin (userAgent : option string) : Result (option string) :=
  match userAgent with
  | None => Throw (readOfUndefined "indexOf")
  | Some userAgent =>
      if Js.indexOf userAgent "okhttp" =? 0 then
        match ANDROID_SHA256HASH env with
        | None => Throw (readOfUndefined "split")
        | Some hash =>
            let octArray := map Js.parseInt16 (Js.split ":" hash) in
            let androidHash := Base64url.encode (Js.bufferFrom octArray) in
            Return (Some ("android:apk-key-hash:" +:+ androidHash))
        end
      else Return (ORIGIN env)
  end.

Definition csrfCheck (req : Request) (next : M unit) : M unit :=
  if decide (header_X_Requested_With req = Some "XMLHttpRequest") then next
  else res_json 400 (ErrorJson "Invalid access").

Definition sessionCheck (req : Request) (next : M unit) : M unit :=
  s ← gets session;
  if decide (Session.name s = Some "main") then next
  else res_json 401 (ErrorJson "Not authenticated").

(** ** Database management and actions *)

Definition resetDb : M unit :=
  modify (fun st => set_users [] st).

Definition hasUsername (name : option string) (u : User) : Prop :=
  name = Some (username u).

#[global] Instance hasUsername_dec name u : Decision (hasUsername name u).
Proof. unfold hasUsername. apply _. Defined.

(** Position of the first user with the given name; an [undefined] name
    matches no user. *)
Definition findUserIndex (username : option string) (us : list User) : option UserRef :=
  fst <$> list_find (hasUsername username) us.

Definition findUserByUsername (username : option string) : M (option UserRef) :=
  gets (fun st => findUserIndex username (users st)).

(** The object behind a reference. *)
Definition deref (user : UserRef) : M User :=
  gets (fun st => users st !!! user).

Definition createUser (user : User) : M unit :=
  modify (fun st => set_users (users st ++ [user]) st).

(** [find({ username }).assign(user)]: the properties of [user] are copied
    onto the first user of that name, if there is one. *)
Definition updateUser (username : option string) (user : UserRef) : M unit :=
  modify (fun st =>
    match findUserIndex username (users st) with
    | Some i => set_users (<[i := users st !!! user]> (users st)) st
    | None => st
    end).

Definition with_credentials (creds : list Credential) (u : User) : User :=
  {| username := username u; id := id u; credentials := creds |}.

Definition updateCredentials (username : option string)
    (credentials : list Credential) : M unit :=
  modify (fun st =>
    match findUserIndex username (users st) with
    | Some i => set_users (alter (with_credentials credentials) i (users st)) st
    | None => st
    end).

Definition createOrGetUser (o : Oracle) (username : string) : M UserRef :=
  user ← findUserByUsername (Some username);
  match user with
  | Some user => mret user
  | None =>
      (* If the user doesn't exist, create it *)
      position ← gets (fun st => length (users st));
      createUser {| username := username;
                    id := Base64url.encode (randomBytes o);
                    credentials := [] |};;
      mret position
  end.

(** ** Session management *)

(** The identifiers issued so far: those of the records of the store and
    the one of the request. *)
Definition issuedSessionIDs (st : State) : gset string :=
  dom (sessions st) ∪ {[ sessionID st ]}.

(** [req.session.regenerate(fn)] of the session middleware: the store
    destroys the record of the current identifier, the request gets a
    newly generated session under a new identifier, and [fn] is called with
    the error of the destroy, if any. *)
Definition session_regenerate (o : Oracle) (fn : option Exn -> M unit) : M unit :=
  modify (fun st =>
    match destroyError o with
    | None => set_sessions (delete (sessionID st) (sessions st)) st
    | Some _ => st
    end);;
  modify (fun st =>
    set_session Session.empty
      (set_sessionID (generateSessionID o (issuedSessionIDs st)) st));;
  callback (fn (destroyError o)).

(** [req.session.save(fn)]: the store records the session under the
    request's identifier, and [fn] is called with the error, if any. *)
Definition session_save (o : Oracle) (fn : option Exn -> M unit) : M unit :=
  modify (fun st =>
    match saveError o with
    | None => set_sessions (<[sessionID st := session st]> (sessions st)) st
    | Some _ => st
    end);;
  callback (fn (saveError o)).

Definition modify_session (f : Session.t -> Session.t) : M unit :=
  modify (fun st => set_session (f (session st)) st).

Definition completeAuthentication (o : Oracle) : M unit :=
  s ← gets session;
  let username := Session.username s in
  let isPasswordCorrect := Session.isPasswordCorrect s in
  if negb (truthyString username) || negb (truthyBool isPasswordCorrect) then
    res_json 401 (ErrorJson GENERIC_AUTH_ERROR_MESSAGE)
  else
    (* Terminate the 'auth' session and start the 'main' session *)
    session_regenerate o (fun err =>
      modify_session (Session.set_name (Some "main"));;
      modify_session (Session.set_username username);;
      session_save o (fun err =>
        res_json 200 (StatusJson "Authentication complete" authStatuses.COMPLETE))).

(** ** The route handlers *)

Definition when (b : bool) (m : M unit) : M unit := if b then m else mret tt.

(** [POST /initialize-authentication] *)
Definition initialize_authentication (req : Request) (o : Oracle) : M unit :=
  (* Validate the input *)
  if negb (bool_decide (validationErrors req = [])) then
    res_json 400
      (ErrorJson "Username or password is empty or contains invalid characters")
  else
    let password := body_password (body req) in
    let username := body_username (body req) in
    user ← createOrGetUser o username;
    modify_session (Session.set_username (Some username));;
    modify_session
      (Session.set_isPasswordCorrect (Some (isPasswordCorrect username password)));;
    (* If 2FA is not set up, complete the authentication *)
    u ← deref user;
    let authType := getAuthType (credentials u) in
    if String.eqb authType authTypes.SINGLE_FACTOR then
      completeAuthentication o
    else if String.eqb authType authTypes.TWO_FACTOR then
      modify_session
        (Session.set_authStatus (Some authStatuses.NEED_SECOND_FACTOR));;
      res_json 200
        (StatusJson
           "Need two factors because two-factor-authentication was configured for this account"
           authStatuses.NEED_SECOND_FACTOR)
    else
      res_json 500 (ErrorJson "Unkown authentication type").

(** [user.credentials]: the read throws when [user] is [undefined]. *)
Definition credentialsOf (user : option UserRef) : M (UserRef * list Credential) :=
  match user with
  | None => throw (readOfUndefined "credentials")
  | Some user => u ← deref user; mret (user, credentials u)
  end.

Definition descriptor (cred : Credential) : CredentialDescriptor :=
  {| cd_id := credId cred; cd_type := "public-key";
     cd_transports := transports cred |}.

(** [POST /two-factor-options] *)
Definition two_factor_options (req : Request) (o : Oracle) : M unit :=
  try_catch
    (s ← gets session;
     user ← findUserByUsername (Session.username s);
     '(user, creds) ← credentialsOf user;
     let userVerification := "preferred" in
     let allowCredentials := map descriptor creds in
     let options :=
       {| opt_challenge := generatedChallenge o;
          opt_timeout := authSettings.FIDO_TIMEOUT;
          opt_rpID := authSettings.RP_ID env;
          opt_allowCredentials := allowCredentials;
          opt_userVerification := userVerification |} in
     modify_session (Session.set_challenge (Some (opt_challenge options)));;
     res_json 200 (OptionsJson options))
    (fun e =>
       res_json 400
         (ErrorJson ("Getting two-factor authentication options failed: "
                     +:+ GENERIC_AUTH_ERROR_MESSAGE))).

Definition authFailed : Json :=
  ErrorJson ("Authentication failed: " +:+ GENERIC_AUTH_ERROR_MESSAGE).

(** [POST /authenticate-two-factor] *)
Definition authenticate_two_factor (req : Request) (o : Oracle) : M unit :=
  let credentialFromClient := body_credential (body req) in
  expectedOrigin ← liftR (getOrigin (header_User_Agent req));
  let expectedRPID := authSettings.RP_ID env in
  s ← gets session;
  let username := Session.username s in
  let isPasswordCorrect := Session.isPasswordCorrect s in
  let expectedChallenge := Session.challenge s in
  when (negb (truthyString username) || negb (truthyBool isPasswordCorrect))
    (res_json 401 authFailed);;
  user ← findUserByUsername username;
  '(user, creds) ← credentialsOf user;
  let credentialFromServer :=
    find (fun cred => String.eqb (credId cred) (cc_id credentialFromClient)) creds in
  when (negb (bool_decide (is_Some credentialFromServer)))
    (res_json 401 authFailed);;
  try_catch
    (verification ← liftR (verifyAssertionResponse fido2
        {| as_credential := credentialFromClient;
           as_expectedChallenge := expectedChallenge;
           as_expectedOrigin := expectedOrigin;
           as_expectedRPID := expectedRPID;
           as_authenticator := credentialFromServer |});
     when (negb (verified verification)) (res_json 401 authFailed);;
     updateUser username user;;
     modify_session (Session.set_challenge None);;
     completeAuthentication o)
    (fun e =>
       modify_session (Session.set_challenge None);;
       res_json 400 (ErrorJson (message e))).

(** ** Credential management *)

(** [GET /credentials] *)
Definition get_credentials (req : Request) : M unit :=
  s ← gets session;
  user ← findUserByUsername (Session.username s);
  match user with
  | Some user => u ← deref user; res_json 200 (UserJson u)
  | None => res_json 200 EmptyJson
  end.

(** [DELETE /credential] *)
Definition delete_credential (req : Request) : M unit :=
  let credId' := query_credId req in
  s ← gets session;
  let username := Session.username s in
  user ← findUserByUsername username;
  '(user, creds) ← credentialsOf user;
  let updatedCredentials :=
    filter (fun cred => credId cred ≠ credId') creds in
  updateCredentials username updatedCredentials;;
  u ← deref user;
  res_json 200 (UserJson u).

Definition with_name (newName : string) (cred : Credential) : Credential :=
  {| publicKey := publicKey cred; credId := credId cred; name := newName;
     transports := transports cred; creationDate := creationDate cred;
     isResidentKey := isResidentKey cred |}.

(** [credentials.findIndex(el => el.credId === credId)] *)
Definition findIndex (credId' : string) (creds : list Credential) : option nat :=
  fst <$> list_find (fun el => credId el = credId') creds.

(** [PUT /credential] *)
Definition put_credential (req : Request) : M unit :=
  (* Validate the input *)
  if negb (bool_decide (validationErrors req = [])) then
    res_json 400 (ValidationErrorsJson (validationErrors req))
  else
    let credId' := query_credId req in
    let newName := query_name req in
    try_catch
      (s ← gets session;
       let username := Session.username s in
       user ← findUserByUsername username;
       '(user, creds) ← credentialsOf user;
       let indexOfCredentialToUpdate := findIndex credId' creds in
       (* The copy of the array holds the stored credential objects: the
          assignment to [name] changes the stored credential. *)
       match indexOfCredentialToUpdate with
       | None => throw (setOfUndefined "name")
       | Some i =>
           let updatedCredentials :=
             alter (with_name (if truthyString (Some newName) then newName else "")) i creds in
           modify (fun st =>
             set_users (alter (with_credentials updatedCredentials)
                          user (users st)) st);;
           (* Update the stored credentials with the copy *)
           updateCredentials username updatedCredentials;;
           u ← deref user;
           res_json 200 (UserJson u)
       end)
      (fun e => res_json 400 (ErrorJson (message e))).

(** [cred.credID]: a stored credential has the properties of [Credential],
    whose identifier is [credId]; it has no property [credID], and the read
    gives [undefined]. *)
Definition credID (cred : Credential) : option string := None.

(** [POST /credential] *)
Definition post_credential (req : Request) (o : Oracle) : M unit :=
  s ← gets session;
  let expectedChallenge := Session.challenge s in
  let username := Session.username s in
  let body := body req in
  let credId' := body_id body in
  let transports := body_transports body in
  let credProps := body_credProps body in
  expectedOrigin ← liftR (getOrigin (header_User_Agent req));
  let expectedRPID := authSettings.RP_ID env in
  try_catch
    ((* Verify the user via fido *)
     verification ← liftR (verifyAttestationResponse fido2
        {| at_credential := body;
           at_expectedChallenge := expectedChallenge;
           at_expectedOrigin := expectedOrigin;
           at_expectedRPID := expectedRPID |});
     if negb (verified verification) then
       res_json 400 (ErrorJson "User verification failed")
     else if negb (bool_decide (validationErrors req = [])) then
       res_json 400 (ValidationErrorsJson (validationErrors req))
     else
       match authenticatorInfo verification with
       | None => throw (readOfUndefined "base64PublicKey")
       | Some info =>
           let base64PublicKey := base64PublicKey info in
           let base64CredentialID := base64CredentialID info in
           user ← findUserByUsername username;
           '(user, creds) ← credentialsOf user;
           let existingCred :=
             find (fun cred =>
                     bool_decide (credID cred = Some base64CredentialID)) creds in
           when (negb (bool_decide (is_Some existingCred)))
             (let newCredential :=
                {| publicKey := base64PublicKey;
                   credId := base64CredentialID;
                   (* the credential isn't given a name upon creation *)
                   name := "";
                   transports := default [] transports;
                   creationDate := now o;
                   (* the "is resident key" info if the client has
                      supplied credProps *)
                   isResidentKey := mjoin credProps |} in
              (* Add the returned device to the user's list of devices *)
              modify (fun st =>
                set_users (alter (with_credentials (creds ++ [newCredential]))
                             user (users st)) st));;
           updateUser username user;;
           modify_session (Session.set_challenge None);;
           (* Respond with user data *)
           u ← deref user;
           res_json 200 (UserJson u)
       end)
    (fun e =>
       modify_session (Session.set_challenge None);;
       res_json 400 (ErrorJson (message e))).

(** [POST /credential-options] *)
Definition credential_options (req : Request) (o : Oracle) : M unit :=
  s ← gets session;
  let username := Session.username s in
  user ← findUserByUsername username;
  try_catch
    ('(user, creds) ← credentialsOf user;
     (* excludeCredentials represent the existing authenticators *)
     let excludeCredentials := map descriptor creds in
     u ← deref user;
     let options :=
       {| att_challenge := generatedChallenge o;
          att_rpName := authSettings.RP_NAME;
          att_rpID := authSettings.RP_ID env;
          att_userID := id u;
          att_userName := username;
          att_timeout := authSettings.FIDO_TIMEOUT;
          att_excludeCredentials := excludeCredentials |} in
     modify_session (Session.set_challenge (Some (att_challenge options)));;
     res_json 200 (AttestationOptionsJson options))
    (fun e => res_json 400 (ErrorJson (message e))).

(** ** The routes: the handlers behind their middleware *)

Definition route_initialize_authentication req o : M unit :=
  initialize_authentication req o.
Definition route_two_factor_options req o : M unit :=
  csrfCheck req (two_factor_options req o).
Definition route_authenticate_two_factor req o : M unit :=
  csrfCheck req (authenticate_two_factor req o).
Definition route_get_credentials req : M unit :=
  csrfCheck req (sessionCheck req (get_credentials req)).
Definition route_delete_credential req : M unit :=
  csrfCheck req (sessionCheck req (delete_credential req)).
Definition route_put_credential req : M unit :=
  csrfCheck req (sessionCheck req (put_credential req)).
Definition route_post_credential req o : M unit :=
  csrfCheck req (sessionCheck req (post_credential req o)).
Definition route_credential_options req o : M unit :=
  csrfCheck req (sessionCheck req (credential_options req o)).

End Router.

(** * Definitions used to state the properties *)

(** ** Origin resolution *)

(** The spec's reading of the configured hash: bytes written as two
    upper-case hexadecimal digits each, separated by colons. *)
Definition hexChar (d : Z) : ascii :=
  match String.get (Z.to_nat d) "0123456789ABCDEF" with
  | Some c => c
  | None => "0"%char
  end.

Definition hexByte (b : Z) : string :=
  String (hexChar (b / 16)) (String (hexChar (b mod 16)) EmptyString).

Fixpoint colonHex (bs : list Z) : string :=
  match bs with
  | [] => EmptyString
  | [b] => hexByte b
  | b :: rest => hexByte b +:+ ":" +:+ colonHex rest
  end.

Definition isByte (b : Z) : Prop := 0 <= b < 256.

(** The bytes [getOrigin] reads from a configured hash. *)
Definition hashBytes (hash : string) : list Z :=
  Js.bufferFrom (map Js.parseInt16 (Js.split ":" hash)).

Definition hexByte_check (n : nat) : bool :=
  let b := Z.of_nat n in
  match hexByte b with
  | String c1 (String c2 EmptyString) =>
      negb (Ascii.eqb c1 ":") && negb (Ascii.eqb c2 ":")
      && match Js.parseInt16 (hexByte b) with
         | Js.Int m => m =? b
         | _ => false
         end
  | _ => false
  end.

Definition env_sample : ProcessEnv :=
  {| NODE_ENV := Some "development"; HOSTNAME := None;
     ANDROID_SHA256HASH := Some "66:6F:6F:62:61:FF";
     ORIGIN := Some "https://example.com" |}.


(** ** The guard on the bootstrapping session *)

(** The test [!username || !isPasswordCorrect] of [completeAuthentication]
    and of [POST /authenticate-two-factor]. *)
Definition guardFails (s : Session.t) : bool :=
  negb (truthyString (Session.username s))
  || negb (truthyBool (Session.isPasswordCorrect s)).

(** The session [completeAuthentication] leaves: named [main], with the
    username of the session it replaces and nothing else. *)
Definition mainSession (username : option string) : Session.t :=
  Session.set_username username (Session.set_name (Some "main") Session.empty).

Definition completeResponse : Response :=
  {| status := 200;
     json := StatusJson "Authentication complete" authStatuses.COMPLETE |}.

Definition needSecondFactorResponse : Response :=
  {| status := 200;
     json := StatusJson
       "Need two factors because two-factor-authentication was configured for this account"
       authStatuses.NEED_SECOND_FACTOR |}.

Definition authFailedResponse : Response :=
  {| status := 401; json := authFailed |}.

(** ** Sample data *)

Module Sample.

Definition credA : Credential :=
  {| publicKey := "pk-A"; credId := "A"; name := "key";
     transports := ["usb"]; creationDate := 1; isResidentKey := None |}.

(** A user with one registered credential, and one with none. *)
Definition alice : User :=
  {| username := "alice@example.com"; id := "YWxpY2U"; credentials := [credA] |}.
Definition bob : User :=
  {| username := "bob@example.com"; id := "Ym9i"; credentials := [] |}.

(** The bootstrapping session after the password step. *)
Definition authSession (username : string) : Session.t :=
  {| Session.name := None; Session.username := Some username;
     Session.isPasswordCorrect := Some true;
     Session.authStatus := Some authStatuses.NEED_SECOND_FACTOR;
     Session.challenge := None |}.

Definition state (s : Session.t) : State :=
  {| users := [alice; bob]; sessions := {[ "sid-0" := s ]};
     sessionID := "sid-0"; session := s; response := None; uncaught := [] |}.

Definition requestBody (credentialId : string) : RequestBody :=
  {| body_username := "alice@example.com"; body_password := "secret";
     body_credential := {| cc_id := credentialId; cc_response := "signed" |};
     body_id := credentialId; body_response := "attested";
     body_transports := Some ["usb"]; body_credProps := None |}.

Definition request (credentialId : string) : Request :=
  {| header_X_Requested_With := Some "XMLHttpRequest";
     header_User_Agent := Some "Mozilla/5.0";
     body := requestBody credentialId;
     query_credId := credentialId; query_name := "";
     validationErrors := [] |}.

(** The same request, with a signature the strict verifier reports as
    unverified. *)
Definition forgedRequest (credentialId : string) : Request :=
  {| header_X_Requested_With := Some "XMLHttpRequest";
     header_User_Agent := Some "Mozilla/5.0";
     body :=
       {| body_username := "alice@example.com"; body_password := "secret";
          body_credential := {| cc_id := credentialId; cc_response := "forged" |};
          body_id := credentialId; body_response := "attested";
          body_transports := Some ["usb"]; body_credProps := None |};
     query_credId := credentialId; query_name := "";
     validationErrors := [] |}.

(** A login request for the given username. *)
Definition login (username : string) : Request :=
  {| header_X_Requested_With := Some "XMLHttpRequest";
     header_User_Agent := Some "Mozilla/5.0";
     body :=
       {| body_username := username; body_password := "secret";
          body_credential := {| cc_id := ""; cc_response := "" |};
          body_id := ""; body_response := "";
          body_transports := None; body_credProps := None |};
     query_credId := ""; query_name := "";
     validationErrors := [] |}.

(** The bootstrapping session with the challenge of the sample oracle
    pending. *)
Definition pendingSession (username : string) : Session.t :=
  Session.set_challenge (Some "challenge-1") (authSession username).

(** An identifier generator: the given identifier, or one that is not in
    use when the given one has been issued before. *)
Definition generate (sid : string) (issued : gset string) : string :=
  if decide (sid ∈ issued) then fresh issued else sid.

Definition generate_unique (sid : string) (issued : gset string)
    : generate sid issued ∉ issued :=
  match decide (sid ∈ issued) as d
    return (if d then fresh issued else sid) ∉ issued
  with
  | left _ => is_fresh issued
  | right notIssued => notIssued
  end.

(** The inputs of a request whose store fails as given. *)
Definition oracleWith (destroyErr saveErr : option Exn) : Oracle :=
  {| randomBytes := [1; 2; 3]; now := 1700000000000;
     generatedChallenge := "challenge-1";
     generateSessionID := generate "sid-1";
     generateSessionID_unique := generate_unique "sid-1";
     destroyError := destroyErr; saveError := saveErr |}.

Definition oracle : Oracle := oracleWith None None.

Definition info (credentialId : string) : Verification :=
  {| verified := true;
     authenticatorInfo :=
       Some {| base64PublicKey := "pk-new"; base64CredentialID := credentialId |} |}.

(** A verifier that checks the challenge: it throws unless the expected
    challenge is the one of the sample oracle and a stored credential is
    given, and reports the signature [forged] as unverified. *)
Definition strict : Fido2 :=
  {| verifyAssertionResponse := fun i =>
       match as_expectedChallenge i, as_authenticator i with
       | Some "challenge-1", Some _ =>
           if String.eqb (cc_response (as_credential i)) "forged"
           then Return {| verified := false; authenticatorInfo := None |}
           else Return (info (cc_id (as_credential i)))
       | Some _, Some _ | None, _ => Throw (Error "Unexpected assertion challenge")
       | _, None => Throw (Error "Missing authenticator")
       end;
     verifyAttestationResponse := fun i =>
       match at_expectedChallenge i with
       | Some "challenge-1" => Return (info (body_id (at_credential i)))
       | _ => Throw (Error "Unexpected attestation challenge")
       end |}.

End Sample.

(** ** Credential management *)

(** The credential [POST /credential] builds. *)
Definition newCredentialOf (req : Request) (o : Oracle) (info : AuthenticatorInfo)
    : Credential :=
  {| publicKey := base64PublicKey info;
     credId := base64CredentialID info;
     name := "";
     transports := default [] (body_transports (body req));
     creationDate := now o;
     isResidentKey := mjoin (body_credProps (body req)) |}.

Definition userResponse (u : User) : Response :=
  {| status := 200; json := UserJson u |}.
(** * Properties *)

(** ** Origin resolution *)

Lemma hexByte_check_all : forallb hexByte_check (seq 0 256) = true.
Proof. vm_compute. reflexivity. Qed.

Lemma hexByte_shape b :
  isByte b ->
  exists c1 c2, hexByte b = String c1 (String c2 EmptyString)
    /\ Ascii.eqb c1 ":" = false /\ Ascii.eqb c2 ":" = false
    /\ Js.parseInt16 (hexByte b) = Js.Int b.
Proof.
  intros Hb.
  pose proof hexByte_check_all as Hall.
  rewrite forallb_forall in Hall.
  specialize (Hall (Z.to_nat b)).
  assert (Hin : In (Z.to_nat b) (seq 0 256)).
  { apply in_seq. unfold isByte in Hb. lia. }
  specialize (Hall Hin). unfold hexByte_check in Hall.
  rewrite Z2Nat.id in Hall by (unfold isByte in Hb; lia).
  destruct (hexByte b) as [|c1 [|c2 [|]]] eqn:E; try discriminate.
  exists c1, c2. split; [reflexivity|].
  destruct (Js.parseInt16 _) as [| |m]; try (rewrite andb_false_r in Hall; discriminate).
  apply andb_prop in Hall as [Hc Hm]. apply andb_prop in Hc as [Hc1 Hc2].
  apply negb_true_iff in Hc1, Hc2. apply Z.eqb_eq in Hm.
  repeat split; congruence.
Qed.

Lemma split_hexByte_colon b rest :
  isByte b ->
  Js.split ":" (hexByte b +:+ ":" +:+ rest) = hexByte b :: Js.split ":" rest.
Proof.
  intros Hb. destruct (hexByte_shape b Hb) as (c1 & c2 & -> & H1 & H2 & _).
  simpl. rewrite H1, H2. reflexivity.
Qed.

Lemma split_hexByte b :
  isByte b -> Js.split ":" (hexByte b) = [hexByte b].
Proof.
  intros Hb. destruct (hexByte_shape b Hb) as (c1 & c2 & -> & H1 & H2 & _).
  simpl. rewrite H1, H2. reflexivity.
Qed.

Lemma split_colonHex bs :
  bs <> [] -> Forall isByte bs -> Js.split ":" (colonHex bs) = map hexByte bs.
Proof.
  induction bs as [|b rest IH]; [congruence|].
  intros _ Hall. inversion Hall as [|? ? Hb Hrest]; subst.
  destruct rest as [|b' rest'].
  - cbn [colonHex map]. apply split_hexByte, Hb.
  - change (colonHex (b :: b' :: rest'))
      with (hexByte b +:+ ":" +:+ colonHex (b' :: rest')).
    rewrite split_hexByte_colon by exact Hb.
    rewrite IH by (congruence || exact Hrest). reflexivity.
Qed.

(** Reading back a hash written in colon-separated hexadecimal gives its
    bytes. *)
Lemma hashBytes_colonHex bs :
  bs <> [] -> Forall isByte bs -> hashBytes (colonHex bs) = bs.
Proof.
  intros Hne Hall. unfold hashBytes. rewrite split_colonHex by assumption.
  unfold Js.bufferFrom. rewrite !map_map.
  clear Hne. induction Hall as [|b rest Hb _ IH]; [reflexivity|].
  cbn [map]. rewrite IH. f_equal.
  destruct (hexByte_shape b Hb) as (_ & _ & _ & _ & _ & ->).
  cbn [Js.toUint8]. unfold isByte in Hb. apply Z.mod_small. lia.
Qed.

(** The encoding on the test vectors of RFC 4648, without padding. *)
Example encode_rfc4648 :
  Base64url.encode [] = ""
  /\ Base64url.encode [102] = "Zg"
  /\ Base64url.encode [102; 111] = "Zm8"
  /\ Base64url.encode [102; 111; 111] = "Zm9v"
  /\ Base64url.encode [102; 111; 111; 98; 97; 114] = "Zm9vYmFy"
  /\ Base64url.encode [251; 255; 191] = "-_-_".
Proof. repeat split. Qed.

(** The encoding never holds a character that is not safe in a URL. *)
Lemma fromBase64_urlsafe s c :
  In c (list_ascii_of_string (Base64url.fromBase64 s)) ->
  c <> "="%char /\ c <> "+"%char /\ c <> "/"%char.
Proof.
  induction s as [|a s IH]; cbn; [tauto|].
  destruct (Ascii.eqb a "=") eqn:E1; [exact IH|].
  destruct (Ascii.eqb a "+") eqn:E2;
    [cbn; intros [<-|H]; [repeat split; discriminate|exact (IH H)]|].
  destruct (Ascii.eqb a "/") eqn:E3;
    [cbn; intros [<-|H]; [repeat split; discriminate|exact (IH H)]|].
  cbn. intros [<-|H]; [|exact (IH H)].
  apply Ascii.eqb_neq in E1, E2, E3. auto.
Qed.

(** [userAgent.indexOf("okhttp") === 0] holds exactly for the user agents
    that start with [okhttp]. *)
Lemma indexOf_okhttp userAgent :
  (Js.indexOf userAgent "okhttp" =? 0) = String.prefix "okhttp" userAgent.
Proof.
  unfold Js.indexOf. destruct userAgent as [|c rest]; [reflexivity|].
  cbn [String.index].
  destruct (String.prefix "okhttp" (String c rest)); [reflexivity|].
  destruct (String.index 0 "okhttp" rest); [|reflexivity].
  apply Z.eqb_neq. lia.
Qed.

Lemma getOrigin_native env userAgent hash :
  String.prefix "okhttp" userAgent = true ->
  ANDROID_SHA256HASH env = Some hash ->
  getOrigin env (Some userAgent) =
    Return (Some ("android:apk-key-hash:" +:+ Base64url.encode (hashBytes hash))).
Proof.
  intros Hp Hh. unfold getOrigin. rewrite indexOf_okhttp, Hp, Hh. reflexivity.
Qed.

Lemma getOrigin_web env userAgent :
  String.prefix "okhttp" userAgent = false ->
  getOrigin env (Some userAgent) = Return (ORIGIN env).
Proof.
  intros Hp. unfold getOrigin. rewrite indexOf_okhttp, Hp. reflexivity.
Qed.

(** C9. For every user-agent string: when it starts with the native
    client's signature [okhttp], the expected origin is
    [android:apk-key-hash:] followed by the base64url encoding of the bytes
    of the configured package-signing hash, whatever the rest of the user
    agent is; for every other user-agent string the expected origin is
    exactly the configured web origin. *)
Theorem getOrigin_resolves env userAgent bs origin :
  ANDROID_SHA256HASH env = Some (colonHex bs) ->
  bs <> [] -> Forall isByte bs ->
  ORIGIN env = Some origin ->
  getOrigin env (Some userAgent) =
    Return (Some (if String.prefix "okhttp" userAgent
                  then "android:apk-key-hash:" +:+ Base64url.encode bs
                  else origin)).
Proof.
  intros Hh Hne Hall Ho.
  destruct (String.prefix "okhttp" userAgent) eqn:Hp.
  - rewrite (getOrigin_native _ _ _ Hp Hh), hashBytes_colonHex by assumption.
    reflexivity.
  - rewrite (getOrigin_web _ _ Hp), Ho. reflexivity.
Qed.

Lemma getOrigin_resolves_witness :
  getOrigin env_sample (Some "okhttp/4.9.0") =
    Return (Some "android:apk-key-hash:Zm9vYmH_")
  /\ getOrigin env_sample (Some "Mozilla/5.0 (not okhttp)") =
    Return (Some "https://example.com").
Proof.
  assert (Hb : Forall isByte [102; 111; 111; 98; 97; 255])
    by (repeat constructor; unfold isByte; lia).
  split.
  - apply (getOrigin_resolves env_sample "okhttp/4.9.0"
             [102; 111; 111; 98; 97; 255] "https://example.com");
      [reflexivity | discriminate | exact Hb | reflexivity].
  - apply (getOrigin_resolves env_sample "Mozilla/5.0 (not okhttp)"
             [102; 111; 111; 98; 97; 255] "https://example.com");
      [reflexivity | discriminate | exact Hb | reflexivity].
Defined.

(** ** Authentication policy *)

Lemma getAuthType_nonempty creds :
  getAuthType creds = authTypes.TWO_FACTOR <-> creds <> [].
Proof.
  unfold getAuthType. destruct creds as [|c creds]; cbn; split;
    intros H; try discriminate; try reflexivity; congruence.
Qed.

Lemma getAuthType_empty creds :
  getAuthType creds = authTypes.SINGLE_FACTOR <-> creds = [].
Proof.
  unfold getAuthType. destruct creds as [|c creds]; cbn; split;
    intros H; try discriminate; try reflexivity; congruence.
Qed.

(** ** Stepping through computations *)

Arguments completeAuthentication : simpl never.
Arguments updateUser : simpl never.
Arguments updateCredentials : simpl never.
Arguments findUserIndex : simpl never.
Arguments getOrigin : simpl never.
Arguments authSettings.RP_ID : simpl never.

Ltac unfold_monad :=
  unfold credentialsOf, findUserByUsername, deref, modify_session, when,
    callback, res_json, try_catch, liftR, gets, modify, throw, mbind, mret,
    M_bind, M_ret in *.

Lemma set_users_same st : set_users (users st) st = st.
Proof. destruct st; reflexivity. Qed.

Lemma findUserIndex_Some name us i :
  findUserIndex name us = Some i ->
  exists u, us !! i = Some u /\ name = Some (username u).
Proof.
  unfold findUserIndex. intros H.
  destruct (list_find _ us) as [[j u]|] eqn:E; [|discriminate].
  simpl in H. injection H as ->.
  apply list_find_Some in E as (Hl & Hp & _). eauto.
Qed.

Lemma updateUser_found name i st :
  findUserIndex name (users st) = Some i ->
  updateUser name i st = (Return tt, st).
Proof.
  intros H. unfold updateUser, modify. rewrite H.
  destruct (findUserIndex_Some _ _ _ H) as (u & Hu & _).
  rewrite list_insert_id, set_users_same; [reflexivity|].
  rewrite (list_lookup_total_correct _ _ _ Hu). exact Hu.
Qed.

Lemma completeAuthentication_rejects o st :
  guardFails (session st) = true ->
  completeAuthentication o st =
    res_json 401 (ErrorJson GENERIC_AUTH_ERROR_MESSAGE) st.
Proof.
  unfold guardFails, completeAuthentication. unfold mbind, M_bind, gets.
  intros ->. reflexivity.
Qed.

(** The identifier [regenerate] gives the request is a new one. *)
Lemma generateSessionID_new o st :
  generateSessionID o (issuedSessionIDs st) <> sessionID st
  /\ sessions st !! generateSessionID o (issuedSessionIDs st) = None.
Proof.
  pose proof (generateSessionID_unique o (issuedSessionIDs st)) as H.
  set (sid := generateSessionID o (issuedSessionIDs st)) in *.
  unfold issuedSessionIDs in H.
  apply not_elem_of_union in H as [Hdom Hid]. split.
  - intros E. apply Hid. rewrite E. apply elem_of_singleton. reflexivity.
  - apply not_elem_of_dom. exact Hdom.
Qed.

(** What [completeAuthentication] does once its guard lets it through. *)
Lemma completeAuthentication_completes o st :
  guardFails (session st) = false ->
  exists st',
    completeAuthentication o st = (Return tt, st')
    /\ users st' = users st
    /\ (sessionID st' <> sessionID st /\ sessions st !! sessionID st' = None)
    /\ session st' = mainSession (Session.username (session st))
    /\ sessions st' =
         (let kept := match destroyError o with
                      | None => delete (sessionID st) (sessions st)
                      | Some _ => sessions st
                      end in
          match saveError o with
          | None => <[sessionID st' := mainSession (Session.username (session st))]> kept
          | Some _ => kept
          end)
    /\ response st' = Some (default completeResponse (response st))
    /\ uncaught st' =
         (uncaught st ++ match response st with
                         | Some _ => [ERR_HTTP_HEADERS_SENT]
                         | None => []
                         end)%list.
Proof.
  unfold guardFails, completeAuthentication, session_regenerate, session_save.
  unfold_monad. intros ->.
  destruct st as [us ss sid s r un]; cbn.
  destruct (destroyError o) eqn:Hd; cbn.
  - destruct (generateSessionID_new o
                {| users := us; sessions := ss; sessionID := sid; session := s;
                   response := r; uncaught := un |}) as [Hne Hnone].
    cbn in Hne, Hnone.
    destruct (saveError o), r; cbn; eexists;
      (split; [reflexivity|]); cbn; rewrite ?app_nil_r; repeat split;
      assumption.
  - destruct (generateSessionID_new o
                {| users := us; sessions := delete sid ss; sessionID := sid;
                   session := s; response := r; uncaught := un |})
      as [Hne Hnone].
    cbn in Hne, Hnone.
    rewrite lookup_delete_ne in Hnone by (intros E; apply Hne; symmetry; exact E).
    destruct (saveError o), r; cbn; eexists;
      (split; [reflexivity|]); cbn; rewrite ?app_nil_r; repeat split;
      assumption.
Qed.

Lemma guardFails_set_challenge c s :
  guardFails (Session.set_challenge c s) = guardFails s.
Proof. reflexivity. Qed.

(** ** The second factor: [POST /authenticate-two-factor] *)

Section SecondFactor.

Context (env : ProcessEnv) (fido2 : Fido2).

Local Abbreviation consume := (authenticate_two_factor env fido2).



(** An attempt that names no stored credential. *)
Lemma consume_unmatched req o st origin i :
  guardFails (session st) = false ->
  getOrigin env (header_User_Agent req) = Return origin ->
  findUserIndex (Session.username (session st)) (users st) = Some i ->
  find (fun cred => String.eqb (credId cred) (cc_id (body_credential (body req))))
       (credentials (users st !!! i)) = None ->
  response (handle (consume req o) st) = Some authFailedResponse.
Proof.
  intros Hg Ho Hi Hc. unfold handle, authenticate_two_factor. unfold_monad.
  rewrite Ho. cbn. pose proof Hg as Hg'. unfold guardFails in Hg'.
  rewrite Hg'. cbn. rewrite Hi. cbn. rewrite Hc. cbn.
  destruct (verifyAssertionResponse _ _) as [v|e]; cbn; [|reflexivity].
  destruct (verified v); cbn; [|reflexivity].
  rewrite updateUser_found by exact Hi. cbn.
  match goal with |- context [completeAuthentication o ?s] =>
    destruct (completeAuthentication_completes o s) as (st' & -> & _ & _ & _ & _ & Hr & _);
      [exact Hg|]
  end.
  cbn. rewrite Hr. reflexivity.
Qed.

(** An attempt the verifier reports as unverified. *)
Lemma consume_unverified req o st origin i c v :
  guardFails (session st) = false ->
  getOrigin env (header_User_Agent req) = Return origin ->
  findUserIndex (Session.username (session st)) (users st) = Some i ->
  find (fun cred => String.eqb (credId cred) (cc_id (body_credential (body req))))
       (credentials (users st !!! i)) = Some c ->
  verifyAssertionResponse fido2
    {| as_credential := body_credential (body req);
       as_expectedChallenge := Session.challenge (session st);
       as_expectedOrigin := origin;
       as_expectedRPID := authSettings.RP_ID env;
       as_authenticator := Some c |} = Return v ->
  verified v = false ->
  response (handle (consume req o) st) = Some authFailedResponse.
Proof.
  intros Hg Ho Hi Hc Hv Hf. unfold handle, authenticate_two_factor. unfold_monad.
  rewrite Ho. cbn. pose proof Hg as Hg'. unfold guardFails in Hg'.
  rewrite Hg'. cbn. rewrite Hi. cbn. rewrite Hc. cbn. rewrite Hv. cbn.
  rewrite Hf. cbn.
  rewrite updateUser_found by exact Hi. cbn.
  match goal with |- context [completeAuthentication o ?s] =>
    destruct (completeAuthentication_completes o s) as (st' & -> & _ & _ & _ & _ & Hr & _);
      [exact Hg|]
  end.
  cbn. rewrite Hr. reflexivity.
Qed.

(** The same attempt goes on after its answer: the handler has no
    [return] there, and the session is regenerated as [main]. *)
Lemma consume_unverified_completes req o st origin i c v :
  guardFails (session st) = false ->
  getOrigin env (header_User_Agent req) = Return origin ->
  findUserIndex (Session.username (session st)) (users st) = Some i ->
  find (fun cred => String.eqb (credId cred) (cc_id (body_credential (body req))))
       (credentials (users st !!! i)) = Some c ->
  verifyAssertionResponse fido2
    {| as_credential := body_credential (body req);
       as_expectedChallenge := Session.challenge (session st);
       as_expectedOrigin := origin;
       as_expectedRPID := authSettings.RP_ID env;
       as_authenticator := Some c |} = Return v ->
  verified v = false ->
  session (handle (consume req o) st)
    = mainSession (Session.username (session st))
  /\ sessionID (handle (consume req o) st) <> sessionID st.
Proof.
  intros Hg Ho Hi Hc Hv Hf. unfold handle, authenticate_two_factor. unfold_monad.
  rewrite Ho. cbn. pose proof Hg as Hg'. unfold guardFails in Hg'.
  rewrite Hg'. cbn. rewrite Hi. cbn. rewrite Hc. cbn. rewrite Hv. cbn.
  rewrite Hf. cbn.
  rewrite updateUser_found by exact Hi. cbn.
  match goal with |- context [completeAuthentication o ?s] =>
    destruct (completeAuthentication_completes o s)
      as (st' & -> & _ & [Hid _] & Hs & _); [exact Hg|]
  end.
  cbn in *. rewrite Hs. split; [reflexivity|exact Hid].
Qed.

(** An attempt on which the verifier throws: the response carries the
    message of the exception. *)
Lemma consume_verifier_throws req o st origin i c e :
  guardFails (session st) = false ->
  getOrigin env (header_User_Agent req) = Return origin ->
  findUserIndex (Session.username (session st)) (users st) = Some i ->
  find (fun cred => String.eqb (credId cred) (cc_id (body_credential (body req))))
       (credentials (users st !!! i)) = Some c ->
  verifyAssertionResponse fido2
    {| as_credential := body_credential (body req);
       as_expectedChallenge := Session.challenge (session st);
       as_expectedOrigin := origin;
       as_expectedRPID := authSettings.RP_ID env;
       as_authenticator := Some c |} = Throw e ->
  response (handle (consume req o) st)
    = Some {| status := 400; json := ErrorJson (message e) |}.
Proof.
  intros Hg Ho Hi Hc Hv. unfold handle, authenticate_two_factor. unfold_monad.
  rewrite Ho. cbn. pose proof Hg as Hg'. unfold guardFails in Hg'.
  rewrite Hg'. cbn. rewrite Hi. cbn. rewrite Hc. cbn. rewrite Hv. cbn.
  reflexivity.
Qed.

(** Whenever the verifier is reached, the session has no pending
    challenge at the end of the attempt. *)
Lemma consume_clears_challenge req o st origin i :
  getOrigin env (header_User_Agent req) = Return origin ->
  findUserIndex (Session.username (session st)) (users st) = Some i ->
  (guardFails (session st) = true ->
   is_Some (find (fun cred =>
                    String.eqb (credId cred) (cc_id (body_credential (body req))))
                 (credentials (users st !!! i)))) ->
  Session.challenge (session (handle (consume req o) st)) = None.
Proof.
  intros Ho Hi Hm. unfold handle, authenticate_two_factor. unfold_monad.
  rewrite Ho. cbn.
  destruct (guardFails (session st)) eqn:Hg;
    pose proof Hg as Hg'; unfold guardFails in Hg'; rewrite Hg'; cbn;
    rewrite Hi; cbn.
  - destruct (Hm eq_refl) as [c ->]. cbn.
    destruct (verifyAssertionResponse _ _) as [v|e]; cbn; [|reflexivity].
    destruct (verified v); cbn; [|reflexivity].
    rewrite updateUser_found by exact Hi. cbn.
    rewrite completeAuthentication_rejects by exact Hg. cbn. reflexivity.
  - destruct (find _ _) as [c|]; cbn;
      (destruct (verifyAssertionResponse _ _) as [v|e]; cbn; [|reflexivity]);
      (destruct (verified v); cbn; try reflexivity);
      rewrite updateUser_found by exact Hi; cbn;
      match goal with |- context [completeAuthentication o ?s] =>
        destruct (completeAuthentication_completes o s)
          as (st' & -> & _ & _ & Hs & _); [exact Hg|]
      end; cbn; rewrite Hs; reflexivity.
Qed.

End SecondFactor.




(** C1. The four ways an attempt at [POST /authenticate-two-factor] fails,
    on the sample data with a verifier that checks the challenge: the
    session without a password step, the unknown credential and the
    unverified assertion are answered with status 401 and the generic
    message; the exception of the verifier is answered with status 400 and
    the verifier's own message. *)
Theorem authenticate_two_factor_verifier_exception_leaks :
  let attempt s req :=
    response (handle (authenticate_two_factor env_sample Sample.strict req
                        Sample.oracle) (Sample.state s)) in
  attempt Session.empty (Sample.request "A") = Some authFailedResponse
  /\ attempt (Sample.pendingSession "alice@example.com") (Sample.request "B")
     = Some authFailedResponse
  /\ attempt (Sample.pendingSession "alice@example.com") (Sample.forgedRequest "A")
     = Some authFailedResponse
  /\ attempt (Sample.authSession "alice@example.com") (Sample.request "A")
     = Some {| status := 400; json := ErrorJson "Unexpected assertion challenge" |}
  /\ json authFailedResponse <> ErrorJson "Unexpected assertion challenge".
Proof. vm_compute. repeat split; discriminate. Qed.

(** C2. Two attempts at [POST /authenticate-two-factor] that leave the
    challenge pending, on the sample data.  On alice's [main] session with
    a pending challenge and an assertion of a credential that is not
    stored, the handler answers 401 twice: the second answer throws
    outside the [try] block, and neither of the two
    [delete req.session.challenge] runs.  On alice's session after the
    password step, with the challenge pending and an assertion the
    verifier would verify, a request without a [User-Agent] header throws
    in [getOrigin], before the [try] block as well.  In both the session
    still holds the challenge when the attempt ends. *)
Theorem authenticate_two_factor_leaves_challenge_pending :
  let attempt s req :=
    handle (authenticate_two_factor env_sample Sample.strict req Sample.oracle)
      (Sample.state s) in
  let main :=
    Session.set_challenge (Some "challenge-1")
      (mainSession (Some "alice@example.com")) in
  let pending := Sample.pendingSession "alice@example.com" in
  let noUserAgent :=
    {| header_X_Requested_With := Some "XMLHttpRequest";
       header_User_Agent := None;
       body := Sample.requestBody "A";
       query_credId := ""; query_name := "";
       validationErrors := [] |} in
  (response (attempt main (Sample.request "B")) = Some authFailedResponse
   /\ uncaught (attempt main (Sample.request "B")) = [ERR_HTTP_HEADERS_SENT]
   /\ Session.challenge (session (attempt main (Sample.request "B")))
      = Some "challenge-1")
  /\ (response (attempt pending noUserAgent) = None
      /\ uncaught (attempt pending noUserAgent) = [readOfUndefined "indexOf"]
      /\ Session.challenge (session (attempt pending noUserAgent))
         = Some "challenge-1")
  /\ response (attempt pending (Sample.request "A")) = Some completeResponse.
Proof. vm_compute. repeat split. Qed.

(** ** Completing the authentication *)

(** C4, as the code has it. Every run of [completeAuthentication] that
    passes its guard regenerates the session: the identifier of the
    session after the run differs from the one before it; the record of
    the old identifier is gone from the store when the destroy succeeds;
    the new session holds the name [main] and the username and nothing
    else, and is in the store under the new identifier when the save
    succeeds.  The run is not atomic: the errors of the destroy and of the
    save are ignored.  When the destroy fails the record of the old
    identifier stays in the store, when the save fails the new session is
    not in the store, and in every case the request goes on under the new
    session and is answered Complete, unless the handler had sent an answer
    before, which then stays. *)
Theorem completeAuthentication_regenerates o st :
  guardFails (session st) = false ->
  exists st',
    completeAuthentication o st = (Return tt, st')
    /\ sessionID st' <> sessionID st
    /\ session st' = mainSession (Session.username (session st))
    /\ users st' = users st
    /\ (destroyError o = None -> sessions st' !! sessionID st = None)
    /\ (saveError o = None -> sessions st' !! sessionID st' = Some (session st'))
    /\ (destroyError o <> None ->
        sessions st' !! sessionID st = sessions st !! sessionID st)
    /\ (saveError o <> None -> sessions st' !! sessionID st' = None)
    /\ response st' = Some (default completeResponse (response st)).
Proof.
  intros Hg.
  destruct (completeAuthentication_completes o st Hg)
    as (st' & Hrun & Hus & [Hne Hnew] & Hs & Hss & Hr & _).
  exists st'. split; [exact Hrun|].
  assert (Hkept :
    match destroyError o with
    | None => delete (sessionID st) (sessions st)
    | Some _ => sessions st
    end !! sessionID st' = None).
  { destruct (destroyError o); [exact Hnew|].
    rewrite lookup_delete_ne by (intros E; apply Hne; symmetry; exact E).
    exact Hnew. }
  cbn zeta in Hss. rewrite Hss, Hs.
  repeat split; try assumption.
  - intros ->. destruct (saveError o).
    + apply lookup_delete_eq.
    + rewrite lookup_insert_ne by exact Hne. apply lookup_delete_eq.
  - intros ->. apply lookup_insert_eq.
  - intros Hd. destruct (destroyError o); [|contradiction].
    destruct (saveError o); [reflexivity|].
    apply lookup_insert_ne. exact Hne.
  - intros Hsv. destruct (saveError o); [exact Hkept|contradiction].
Qed.

Lemma completeAuthentication_regenerates_witness :
  exists st',
    completeAuthentication Sample.oracle
      (Sample.state (Sample.authSession "alice@example.com")) = (Return tt, st')
    /\ sessionID st' <> "sid-0"
    /\ session st' = mainSession (Some "alice@example.com")
    /\ sessions st' !! "sid-0" = None
    /\ sessions st' !! sessionID st' = Some (session st')
    /\ response st' = Some completeResponse.
Proof.
  destruct (completeAuthentication_regenerates Sample.oracle
              (Sample.state (Sample.authSession "alice@example.com")) eq_refl)
    as (st' & Hrun & Hid & Hs & _ & Hold & Hnew & _ & _ & Hr).
  exists st'. split; [exact Hrun|]. split; [exact Hid|]. split; [exact Hs|].
  split; [exact (Hold eq_refl)|]. split; [exact (Hnew eq_refl)|exact Hr].
Defined.

(** C4, as the spec has it, fails.  When the save of the new session
    fails, the caller is still answered Complete, the old session is gone
    from the store and the new one is not in it.  When the destroy of the
    old session fails, the caller is answered Complete as well, and the old
    identifier still resolves to the session of the password step. *)
Lemma completeAuthentication_not_atomic :
  let st := Sample.state (Sample.authSession "alice@example.com") in
  let saveFailed :=
    snd (completeAuthentication
           (Sample.oracleWith None (Some (Error "store unavailable"))) st) in
  let destroyFailed :=
    snd (completeAuthentication
           (Sample.oracleWith (Some (Error "store unavailable")) None) st) in
  sessions st !! "sid-0" = Some (Sample.authSession "alice@example.com")
  /\ (response saveFailed = Some completeResponse
      /\ sessionID saveFailed = "sid-1"
      /\ sessions saveFailed !! "sid-0" = None
      /\ sessions saveFailed !! "sid-1" = None)
  /\ (response destroyFailed = Some completeResponse
      /\ sessionID destroyFailed = "sid-1"
      /\ sessions destroyFailed !! "sid-0"
         = Some (Sample.authSession "alice@example.com")).
Proof. vm_compute. repeat split. Qed.

(** ** The first step: [POST /initialize-authentication] *)

Lemma bool_decide_nil_true {A} (l : list A) `{EqDecision A} :
  l = [] -> negb (bool_decide (l = [])) = false.
Proof. intros ->. reflexivity. Qed.

Lemma truthyString_nonempty s : s <> "" -> truthyString (Some s) = true.
Proof.
  intros H. unfold truthyString. apply negb_true_iff.
  apply String.eqb_neq. exact H.
Qed.

(** The session [POST /initialize-authentication] leaves when a second
    factor is needed. *)
Lemma initialize_authentication_outcome req o st :
  validationErrors req = [] ->
  body_username (body req) <> "" ->
  let username := body_username (body req) in
  let st' := handleSync (initialize_authentication req o) st in
  let created := {| username := username;
                    id := Base64url.encode (randomBytes o);
                    credentials := [] |} in
  let known := findUserIndex (Some username) (users st) in
  users st' = match known with
              | Some _ => users st
              | None => (users st ++ [created])%list
              end
  /\ match credentials (from_option (fun i => users st !!! i) created known) with
     | [] =>
         response st' = Some completeResponse
         /\ session st' = mainSession (Some username)
         /\ sessionID st' <> sessionID st
     | _ :: _ =>
         response st' = Some needSecondFactorResponse
         /\ session st' =
              Session.set_authStatus (Some authStatuses.NEED_SECOND_FACTOR)
                (Session.set_isPasswordCorrect (Some true)
                   (Session.set_username (Some username) (session st)))
         /\ sessionID st' = sessionID st
     end.
Proof.
  intros Hv Hu. cbn zeta.
  unfold handleSync, initialize_authentication, createOrGetUser, createUser.
  rewrite (bool_decide_nil_true _ Hv). unfold_monad. cbn.
  assert (Hguard : forall s,
    guardFails (Session.set_isPasswordCorrect (Some true)
                  (Session.set_username (Some (body_username (body req))) s))
    = false).
  { intros s. unfold guardFails. cbn -[truthyString].
    rewrite (truthyString_nonempty _ Hu). reflexivity. }
  unfold isPasswordCorrect.
  destruct (findUserIndex _ _) as [i|] eqn:Hi; cbn.
  - destruct (credentials (users st !!! i)) as [|c cs] eqn:Hc.
    + change (getAuthType []) with authTypes.SINGLE_FACTOR. cbn.
      match goal with |- context [completeAuthentication o ?s] =>
        destruct (completeAuthentication_completes o s)
          as (st' & -> & Hus & [Hid _] & Hs & _ & Hr & _); [apply Hguard|]
      end.
      cbn in *. rewrite Hus, Hs, Hr. repeat split. exact Hid.
    + change (getAuthType (c :: cs)) with authTypes.TWO_FACTOR. cbn.
      repeat split.
  - rewrite lookup_total_app_r by reflexivity.
    rewrite Nat.sub_diag. cbn.
    change (getAuthType []) with authTypes.SINGLE_FACTOR. cbn.
    match goal with |- context [completeAuthentication o ?s] =>
      destruct (completeAuthentication_completes o s)
        as (st' & -> & Hus & [Hid _] & Hs & _ & Hr & _); [apply Hguard|]
    end.
    cbn in *. rewrite Hus, Hs, Hr. repeat split. exact Hid.
Qed.

(** C7. For every well-formed request to [POST /initialize-authentication]
    (the validation found no error and the username is not empty): when the
    user is known and has no credential the answer is Complete at once;
    when the user has one credential or more the answer is
    NeedSecondFactor, the session records [needSecondFactor] and is not
    regenerated; a username not seen before gets a new user with an empty
    credential list, and the answer is Complete. *)
Theorem initialize_authentication_policy req o st :
  validationErrors req = [] ->
  body_username (body req) <> "" ->
  (forall i,
     findUserIndex (Some (body_username (body req))) (users st) = Some i ->
     users (handleSync (initialize_authentication req o) st) = users st
     /\ (credentials (users st !!! i) = [] ->
         response (handleSync (initialize_authentication req o) st)
           = Some completeResponse)
     /\ (credentials (users st !!! i) <> [] ->
         response (handleSync (initialize_authentication req o) st)
           = Some needSecondFactorResponse
         /\ Session.authStatus (session (handleSync (initialize_authentication req o) st))
            = Some authStatuses.NEED_SECOND_FACTOR
         /\ sessionID (handleSync (initialize_authentication req o) st) = sessionID st))
  /\ (findUserIndex (Some (body_username (body req))) (users st) = None ->
      users (handleSync (initialize_authentication req o) st)
        = (users st ++ [{| username := body_username (body req);
                           id := Base64url.encode (randomBytes o);
                           credentials := [] |}])%list
      /\ response (handleSync (initialize_authentication req o) st)
         = Some completeResponse).
Proof.
  intros Hv Hu.
  pose proof (initialize_authentication_outcome req o st Hv Hu) as H.
  cbn zeta in H. split.
  - intros i Hi. rewrite Hi in H. cbn in H. destruct H as [Hus H].
    split; [exact Hus|].
    destruct (credentials (users st !!! i)) as [|c cs]; split.
    + intros _. apply H.
    + congruence.
    + discriminate.
    + intros _. destruct H as (Hr & Hs & Hid). rewrite Hs. auto.
  - intros Hi. rewrite Hi in H. cbn in H. destruct H as [Hus [Hr _]]. auto.
Qed.

Lemma initialize_authentication_policy_witness :
  response (handleSync (initialize_authentication
                      (Sample.login "alice@example.com") Sample.oracle)
              (Sample.state Session.empty))
    = Some needSecondFactorResponse
  /\ response (handleSync (initialize_authentication
                         (Sample.login "bob@example.com") Sample.oracle)
                 (Sample.state Session.empty))
     = Some completeResponse
  /\ response (handleSync (initialize_authentication
                         (Sample.login "carol@example.com") Sample.oracle)
                 (Sample.state Session.empty))
     = Some completeResponse.
Proof.
  split; [|split].
  - refine (proj1 (proj2 (proj2 (proj1
      (initialize_authentication_policy (Sample.login "alice@example.com")
         Sample.oracle (Sample.state Session.empty) eq_refl _) 0%nat eq_refl)) _));
      discriminate.
  - refine (proj1 (proj2 (proj1
      (initialize_authentication_policy (Sample.login "bob@example.com")
         Sample.oracle (Sample.state Session.empty) eq_refl _) 1%nat eq_refl)) eq_refl).
    discriminate.
  - refine (proj2 (proj2
      (initialize_authentication_policy (Sample.login "carol@example.com")
         Sample.oracle (Sample.state Session.empty) eq_refl _) eq_refl)).
    discriminate.
Defined.

(** C10, as the code has it. [isPasswordCorrect] returns true for every
    username and password.  Hence a well-formed request to
    [POST /initialize-authentication] is never rejected: it is answered
    Complete or NeedSecondFactor.  When a second factor is needed the
    session holds the password flag, and it is true; when the
    authentication is complete the session is the regenerated [main]
    session, which holds the username and no password flag. *)
Theorem initialize_authentication_password_flag req o st :
  validationErrors req = [] ->
  body_username (body req) <> "" ->
  (forall username password, isPasswordCorrect username password = true)
  /\ ((response (handleSync (initialize_authentication req o) st)
         = Some needSecondFactorResponse
       /\ Session.isPasswordCorrect
            (session (handleSync (initialize_authentication req o) st)) = Some true)
      \/ (response (handleSync (initialize_authentication req o) st)
            = Some completeResponse
          /\ session (handleSync (initialize_authentication req o) st)
             = mainSession (Some (body_username (body req))))).
Proof.
  intros Hv Hu. split; [reflexivity|].
  pose proof (initialize_authentication_outcome req o st Hv Hu) as [_ H].
  cbn zeta in H.
  destruct (credentials _) as [|c cs].
  - right. destruct H as (Hr & Hs & _). auto.
  - left. destruct H as (Hr & Hs & _). rewrite Hs. auto.
Qed.

Lemma initialize_authentication_password_flag_witness :
  Session.isPasswordCorrect
    (session (handleSync (initialize_authentication
                        (Sample.login "alice@example.com") Sample.oracle)
                (Sample.state Session.empty))) = Some true.
Proof.
  destruct (proj2 (initialize_authentication_password_flag
                     (Sample.login "alice@example.com") Sample.oracle
                     (Sample.state Session.empty) eq_refl
                     ltac:(discriminate))) as [[_ H]|[H _]].
  - exact H.
  - discriminate H.
Defined.

(** C10, as the spec has it, fails on the single-factor path: after the
    request of a user without credentials the session is the regenerated
    one, and its password flag is not set. *)
Lemma initialize_authentication_single_factor_drops_flag :
  validationErrors (Sample.login "bob@example.com") = []
  /\ response (handleSync (initialize_authentication
                         (Sample.login "bob@example.com") Sample.oracle)
                 (Sample.state Session.empty))
     = Some completeResponse
  /\ Session.isPasswordCorrect
       (session (handleSync (initialize_authentication
                           (Sample.login "bob@example.com") Sample.oracle)
                   (Sample.state Session.empty)))
     = None.
Proof. vm_compute. repeat split. Qed.

(** ** Credential management *)

Lemma findUserIndex_alter name f j us :
  (forall u, username (f u) = username u) ->
  findUserIndex name (alter f j us) = findUserIndex name us.
Proof.
  intros Hf. unfold findUserIndex. revert j.
  induction us as [|u us IH]; intros j; [reflexivity|].
  destruct j as [|j]; cbn.
  - repeat case_decide; unfold hasUsername in *; try reflexivity;
      rewrite (Hf u) in *; contradiction.
  - case_decide; [reflexivity|].
    specialize (IH j).
    destruct (list_find _ (alter f j us)) as [[a b]|],
             (list_find _ us) as [[a' b']|]; cbn in *; congruence.
Qed.

Lemma updateCredentials_found name i creds st :
  findUserIndex name (users st) = Some i ->
  updateCredentials name creds st
    = (Return tt, set_users (alter (with_credentials creds) i (users st)) st).
Proof. intros H. unfold updateCredentials, modify. rewrite H. reflexivity. Qed.

Lemma with_credentials_twice c c' u :
  with_credentials c (with_credentials c' u) = with_credentials c u.
Proof. reflexivity. Qed.

(** The search for an existing credential compares the missing property
    [credID] with a string: it finds nothing. *)
Lemma find_existingCred (A : Type) (creds : list A) :
  find (fun _ => false) creds = None.
Proof. induction creds; [reflexivity|assumption]. Qed.

Section Registration.

Context (env : ProcessEnv) (fido2 : Fido2).

(** A registration whose attestation verifies appends the new credential,
    whatever the stored credentials are. *)
Lemma post_credential_appends req o st origin v info i :
  getOrigin env (header_User_Agent req) = Return origin ->
  verifyAttestationResponse fido2
    {| at_credential := body req;
       at_expectedChallenge := Session.challenge (session st);
       at_expectedOrigin := origin;
       at_expectedRPID := authSettings.RP_ID env |} = Return v ->
  verified v = true ->
  authenticatorInfo v = Some info ->
  validationErrors req = [] ->
  findUserIndex (Session.username (session st)) (users st) = Some i ->
  let creds := credentials (users st !!! i) in
  let st' := handle (post_credential env fido2 req o) st in
  users st' = alter (with_credentials (creds ++ [newCredentialOf req o info])) i (users st)
  /\ credentials (users st' !!! i) = (creds ++ [newCredentialOf req o info])%list
  /\ response st' = Some {| status := 200; json := UserJson (users st' !!! i) |}.
Proof.
  intros Ho Hv Hok Hinfo Hval Hi. cbn zeta.
  destruct (findUserIndex_Some _ _ _ Hi) as (u & Hu & _).
  assert (Hlen : (i < length (users st))%nat) by (eapply lookup_lt_Some; eauto).
  unfold handle, post_credential. unfold_monad. cbn.
  rewrite Ho. cbn. rewrite Hv. cbn. rewrite Hok. cbn.
  rewrite (bool_decide_nil_true _ Hval). rewrite Hinfo. cbn.
  rewrite Hi. cbn. rewrite find_existingCred. cbn.
  rewrite updateUser_found
    by (cbn; rewrite findUserIndex_alter by reflexivity; exact Hi).
  cbn. fold (newCredentialOf req o info).
  rewrite list_lookup_total_alter_eq by exact Hlen.
  repeat split.
Qed.

End Registration.

(** C3. On the sample data: the user has one credential, with identifier
    [A]; the registration of a credential whose attestation verifies with
    the same identifier is answered with status 200, and the user then has
    two credentials with identifier [A]. *)
Theorem post_credential_duplicate_credId :
  let st := Sample.state (Session.set_challenge (Some "challenge-1")
                            (mainSession (Some "alice@example.com"))) in
  let st' := handle (route_post_credential env_sample Sample.strict
                       (Sample.request "A") Sample.oracle) st in
  map credId (credentials (users st !!! 0%nat)) = ["A"]
  /\ map credId (credentials (users st' !!! 0%nat)) = ["A"; "A"]
  /\ response st' = Some (userResponse (users st' !!! 0%nat)).
Proof. vm_compute. repeat split. Qed.

Lemma post_credential_success_inv env fido2 req o st u :
  response (handle (post_credential env fido2 req o) st) = Some (userResponse u) ->
  exists i,
    findUserIndex (Session.username (session st)) (users st) = Some i
    /\ findUserIndex (Session.username (session st))
         (users (handle (post_credential env fido2 req o) st)) = Some i
    /\ users (handle (post_credential env fido2 req o) st) !! i = Some u
    /\ credentials u <> [].
Proof.
  destruct (getOrigin env (header_User_Agent req)) as [origin|e] eqn:Ho.
  2:{ unfold handle, post_credential. unfold_monad. cbn. rewrite Ho. cbn.
      discriminate. }
  destruct (verifyAttestationResponse fido2
    {| at_credential := body req;
       at_expectedChallenge := Session.challenge (session st);
       at_expectedOrigin := origin;
       at_expectedRPID := authSettings.RP_ID env |}) as [v|e] eqn:Hv.
  2:{ unfold handle, post_credential. unfold_monad. cbn. rewrite Ho. cbn.
      rewrite Hv. cbn. discriminate. }
  destruct (verified v) eqn:Hok.
  2:{ unfold handle, post_credential. unfold_monad. cbn. rewrite Ho. cbn.
      rewrite Hv. cbn. rewrite Hok. cbn. discriminate. }
  destruct (validationErrors req) as [|err errs] eqn:Hval.
  2:{ unfold handle, post_credential. unfold_monad. cbn. rewrite Ho. cbn.
      rewrite Hv. cbn. rewrite Hok, Hval. cbn. discriminate. }
  destruct (authenticatorInfo v) as [info|] eqn:Hinfo.
  2:{ unfold handle, post_credential. unfold_monad. cbn. rewrite Ho. cbn.
      rewrite Hv. cbn. rewrite Hok, Hval, Hinfo. cbn. discriminate. }
  destruct (findUserIndex (Session.username (session st)) (users st))
    as [i|] eqn:Hi.
  2:{ unfold handle, post_credential. unfold_monad. cbn. rewrite Ho. cbn.
      rewrite Hv. cbn. rewrite Hok, Hval, Hinfo. cbn. rewrite Hi. cbn.
      discriminate. }
  destruct (post_credential_appends env fido2 req o st origin v info i
              Ho Hv Hok Hinfo Hval Hi) as (Hus & Hcs & Hr).
  destruct (findUserIndex_Some _ _ _ Hi) as (u0 & Hu0 & _).
  assert (Hlen : (i < length (users st))%nat) by (eapply lookup_lt_Some; eauto).
  rewrite Hr. intros [= <-]. exists i. split; [reflexivity|].
  split; [rewrite Hus, findUserIndex_alter by reflexivity; exact Hi|].
  split.
  - apply list_lookup_lookup_total_lt. rewrite Hus, length_alter. exact Hlen.
  - rewrite Hcs. intros H. apply app_eq_nil in H as [_ H]. discriminate H.
Qed.

Lemma filter_nonempty_Exists {A} (P : A -> Prop) `{forall x, Decision (P x)}
    (l : list A) :
  filter P l <> [] <-> Exists P l.
Proof.
  induction l as [|x l IH].
  - split; [intros H0; exfalso; apply H0; reflexivity|]. intros HE. inversion HE.
  - rewrite filter_cons. destruct (decide (P x)) as [Hp|Hp].
    + split; [intros _; constructor; exact Hp|discriminate].
    + rewrite IH. split; [intros HE; constructor 2; exact HE|].
      intros HE. inversion HE; subst; [contradiction|assumption].
Qed.

Lemma delete_credential_success_inv req st u :
  response (handleSync (delete_credential req) st) = Some (userResponse u) ->
  exists i,
    findUserIndex (Session.username (session st)) (users st) = Some i
    /\ findUserIndex (Session.username (session st))
         (users (handleSync (delete_credential req) st)) = Some i
    /\ users (handleSync (delete_credential req) st) !! i = Some u
    /\ credentials u
       = filter (fun cred => credId cred <> query_credId req)
           (credentials (users st !!! i)).
Proof.
  unfold handleSync, delete_credential. unfold_monad. cbn.
  destruct (findUserIndex (Session.username (session st)) (users st))
    as [i|] eqn:Hi; cbn; [|discriminate].
  destruct (findUserIndex_Some _ _ _ Hi) as (u0 & Hu0 & _).
  assert (Hlen : (i < length (users st))%nat) by (eapply lookup_lt_Some; eauto).
  rewrite (updateCredentials_found _ i) by exact Hi. cbn.
  rewrite list_lookup_total_alter_eq by exact Hlen.
  intros [= <-]. exists i. split; [reflexivity|].
  split; [rewrite findUserIndex_alter by reflexivity; exact Hi|].
  split; [|reflexivity].
  rewrite list_lookup_alter_eq, Hu0.
  rewrite (list_lookup_total_correct _ _ _ Hu0). reflexivity.
Qed.

(** C6. The authentication type is two-factor exactly when the credential
    list is not empty and single-factor exactly when it is empty: it is a
    function of the credential list alone.  After a successful
    [POST /credential] the stored user of the session has a credential, so
    its type is two-factor; after a successful [DELETE /credential] the
    stored user has the credentials with another identifier, and its type
    is two-factor exactly when there is one. *)
Theorem getAuthType_policy :
  (forall creds, getAuthType creds = authTypes.TWO_FACTOR <-> creds <> [])
  /\ (forall creds, getAuthType creds = authTypes.SINGLE_FACTOR <-> creds = [])
  /\ (forall env fido2 req o st u,
        response (handle (post_credential env fido2 req o) st)
          = Some (userResponse u) ->
        exists i,
          findUserIndex (Session.username (session st))
            (users (handle (post_credential env fido2 req o) st)) = Some i
          /\ users (handle (post_credential env fido2 req o) st) !! i = Some u
          /\ getAuthType (credentials u) = authTypes.TWO_FACTOR)
  /\ (forall req st u,
        response (handleSync (delete_credential req) st) = Some (userResponse u) ->
        exists i before,
          findUserIndex (Session.username (session st))
            (users (handleSync (delete_credential req) st)) = Some i
          /\ users st !! i = Some before
          /\ users (handleSync (delete_credential req) st) !! i = Some u
          /\ (getAuthType (credentials u) = authTypes.TWO_FACTOR
              <-> Exists (fun cred => credId cred <> query_credId req)
                    (credentials before))).
Proof.
  split; [exact getAuthType_nonempty|].
  split; [exact getAuthType_empty|].
  split.
  - intros env fido2 req o st u Hr.
    destruct (post_credential_success_inv env fido2 req o st u Hr)
      as (i & _ & Hi & Hu & Hne).
    exists i. repeat split; try assumption. apply getAuthType_nonempty, Hne.
  - intros req st u Hr.
    destruct (delete_credential_success_inv req st u Hr)
      as (i & Hi0 & Hi & Hu & Hcs).
    destruct (findUserIndex_Some _ _ _ Hi0) as (u0 & Hu0 & _).
    exists i, u0. repeat split; try assumption.
    + intros H. apply getAuthType_nonempty in H. rewrite Hcs in H.
      rewrite (list_lookup_total_correct _ _ _ Hu0) in H.
      apply filter_nonempty_Exists in H. exact H.
    + intros H. apply getAuthType_nonempty. rewrite Hcs.
      rewrite (list_lookup_total_correct _ _ _ Hu0).
      apply filter_nonempty_Exists. exact H.
Qed.

Lemma getAuthType_policy_witness :
  getAuthType (credentials Sample.bob) = authTypes.SINGLE_FACTOR
  /\ exists i,
       users (handle (post_credential env_sample Sample.strict
                        (Sample.request "C") Sample.oracle)
                (Sample.state (Session.set_challenge (Some "challenge-1")
                                 (mainSession (Some "bob@example.com")))))
         !! i
       = Some {| username := "bob@example.com"; id := "Ym9i";
                 credentials :=
                   [newCredentialOf (Sample.request "C") Sample.oracle
                      {| base64PublicKey := "pk-new"; base64CredentialID := "C" |}] |}.
Proof.
  destruct getAuthType_policy as (_ & Hsfa & Hadd & _).
  split; [apply Hsfa; reflexivity|].
  destruct (Hadd env_sample Sample.strict (Sample.request "C") Sample.oracle
              (Sample.state (Session.set_challenge (Some "challenge-1")
                               (mainSession (Some "bob@example.com"))))
              _ eq_refl) as (i & _ & Hu & _).
  exists i. exact Hu.
Defined.

(** ** Renaming a credential: [PUT /credential] *)

Lemma findIndex_None q creds :
  findIndex q creds = None <-> Forall (fun c => credId c <> q) creds.
Proof.
  unfold findIndex. rewrite fmap_None. apply list_find_None.
Qed.

Lemma findIndex_Some q creds k :
  findIndex q creds = Some k ->
  exists c, creds !! k = Some c /\ credId c = q.
Proof.
  unfold findIndex. intros H.
  destruct (list_find _ creds) as [[j c]|] eqn:E; [|discriminate].
  cbn in H. injection H as ->.
  apply list_find_Some in E as (Hl & Hp & _). eauto.
Qed.

Lemma findIndex_Exists q creds :
  Exists (fun c => credId c = q) creds -> is_Some (findIndex q creds).
Proof.
  intros HE. apply Exists_exists in HE as (c & Hin & Hc).
  unfold findIndex. apply fmap_is_Some.
  apply (list_find_elem_of _ creds c); [exact Hin|exact Hc].
Qed.

Lemma alter_with_credentials_twice creds i (us : list User) :
  alter (with_credentials creds) i (alter (with_credentials creds) i us)
  = alter (with_credentials creds) i us.
Proof.
  rewrite list_alter_alter_eq. apply list_alter_ext; [|reflexivity].
  intros u _. reflexivity.
Qed.

(** C8. For every request to [PUT /credential] of a session whose user is
    stored: when no credential of the user has the given identifier, the
    request fails, with status 400 and the message of the exception that
    the write to the missing credential throws, and the users are
    unchanged; when a credential has the identifier and the new name is the
    empty string, the request succeeds with status 200 and the stored name
    of the (first) credential with that identifier is the empty string, the
    other credentials and users being unchanged. *)
Theorem put_credential_rename req st i :
  validationErrors req = [] ->
  findUserIndex (Session.username (session st)) (users st) = Some i ->
  (Forall (fun c => credId c <> query_credId req)
          (credentials (users st !!! i)) ->
   response (handleSync (put_credential req) st)
     = Some {| status := 400;
               json := ErrorJson (message (setOfUndefined "name")) |}
   /\ users (handleSync (put_credential req) st) = users st)
  /\ (Exists (fun c => credId c = query_credId req)
             (credentials (users st !!! i)) ->
      query_name req = "" ->
      exists k c,
        credentials (users st !!! i) !! k = Some c
        /\ credId c = query_credId req
        /\ users (handleSync (put_credential req) st)
           = alter (with_credentials
                      (alter (with_name "") k (credentials (users st !!! i))))
               i (users st)
        /\ credentials (users (handleSync (put_credential req) st) !!! i) !! k
           = Some (with_name "" c)
        /\ response (handleSync (put_credential req) st)
           = Some (userResponse (users (handleSync (put_credential req) st) !!! i))).
Proof.
  intros Hval Hi.
  destruct (findUserIndex_Some _ _ _ Hi) as (u & Hu & _).
  assert (Hlen : (i < length (users st))%nat) by (eapply lookup_lt_Some; eauto).
  split.
  - intros Hnone. apply findIndex_None in Hnone.
    unfold handleSync, put_credential. rewrite (bool_decide_nil_true _ Hval).
    unfold_monad. cbn. rewrite Hi. cbn. rewrite Hnone. cbn.
    split; reflexivity.
  - intros Hex Hname.
    destruct (findIndex_Exists _ _ Hex) as [k Hk].
    destruct (findIndex_Some _ _ _ Hk) as (c & Hc & Hq).
    exists k, c. split; [exact Hc|]. split; [exact Hq|].
    unfold handleSync, put_credential. rewrite (bool_decide_nil_true _ Hval).
    unfold_monad. cbn. rewrite Hi. cbn. rewrite Hk, Hname. cbn.
    rewrite (updateCredentials_found _ i)
      by (cbn; rewrite findUserIndex_alter by reflexivity; exact Hi).
    cbn. rewrite alter_with_credentials_twice.
    rewrite list_lookup_total_alter_eq by exact Hlen. cbn.
    repeat split.
    rewrite list_lookup_alter_eq, Hc. reflexivity.
Qed.

Lemma put_credential_rename_witness :
  name <$> credentials
             (users (handleSync (put_credential (Sample.request "A"))
                       (Sample.state (mainSession (Some "alice@example.com"))))
                !!! 0%nat) !! 0%nat
    = Some ""
  /\ users (handleSync (put_credential (Sample.request "Z"))
              (Sample.state (mainSession (Some "alice@example.com"))))
     = [Sample.alice; Sample.bob].
Proof.
  pose proof (put_credential_rename (Sample.request "A")
                (Sample.state (mainSession (Some "alice@example.com")))
                0%nat eq_refl eq_refl) as [_ Hfound].
  pose proof (put_credential_rename (Sample.request "Z")
                (Sample.state (mainSession (Some "alice@example.com")))
                0%nat eq_refl eq_refl) as [Hmissing _].
  split.
  - destruct Hfound as (k & c & Hc & _ & _ & Hn & _).
    + constructor. reflexivity.
    + reflexivity.
    + destruct k as [|k]; [rewrite Hn; reflexivity|].
      destruct k; discriminate Hc.
  - apply Hmissing. repeat constructor. discriminate.
Defined.
